(** * Static-website hosting stack: a shallow embedding

    The repository declares cloud resources with the CDK: an entrypoint
    ([bin/infrastructure.ts]) reads two context parameters and instantiates
    one stack ([lib/infrastructure-stack.ts]), whose constructor declares
    the resources one after the other as children of the stack.  A third
    file is the dependency-update configuration.

    Constructing a resource is modelled as adding a child (construct id,
    declaration) to the stack under construction; the declaration records
    the properties the source passes.  Values that only exist at deploy time
    (ARNs, generated identifiers) are kept as symbolic tokens that name the
    construct they come from.

    Of the library, the model has what decides how the source runs: a
    construct id can be used once in a scope; a record set qualifies its
    name with the name of its zone, which a zone imported by id does not
    have; a list token cannot be resolved where a string is expected; the
    account of a stack is the one of its environment when it has one.  A
    constructor that throws leaves the children attached so far.  The
    children and policy statements the library derives on its own from the
    props (helpers for [autoDeleteObjects], the grant of an origin access
    control) and its validation of physical names are not part of the
    model: children and statements are the ones the source writes. *)

From stdpp Require Import base strings list gmap.

Local Open Scope string_scope.
Local Open Scope Z_scope.
Local Open Scope list_scope.

(** ** Deploy-time tokens and template strings *)

(** A string attribute read off a construct, or the account of a stack
    without one in its environment.  The argument is the id of the
    construct the attribute is read from. *)
Inductive token : Type :=
  | this_account
  | bucketArn (bucket : string)
  | bucketName (bucket : string)
  | arnForObjects (bucket : string) (keyPattern : string)
  | distributionId (dist : string)
  | distributionArn (dist : string)
  | distributionDomainName (dist : string)
  | userName (user : string).

(** An attribute that is a list of strings. *)
Inductive list_token : Type :=
  | hostedZoneNameServers (zone : string).

(** A piece of a template literal. *)
Inductive part : Type :=
  | Lit (s : string)
  | Tok (t : token).

(** A string value as the stack declares it: literal text interleaved with
    tokens. *)
Abbreviation tstring := (list part).

(** What the source writes where a string is expected: a template string,
    or JavaScript's [join] called on a list token.  A list token is an
    array holding one marker, so that [join] returns the marker of the list
    itself, whatever the separator. *)
Inductive string_value : Type :=
  | Template (t : tstring)
  | Array_join (l : list_token) (separator : string).

(** What a template string becomes once the tokens have their values. *)
Definition resolve_part (rho : token -> string) (p : part) : string :=
  match p with
  | Lit s => s
  | Tok t => rho t
  end.

Definition resolve (rho : token -> string) (t : tstring) : string :=
  foldr (fun p acc => resolve_part rho p +:+ acc) "" t.


(** ** Errors *)

(** The errors the library throws on the paths the source takes. *)
Inductive library_error : Type :=
  (* a second construct with the id of a child of the scope *)
  | duplicate_construct_id (id : string)
  (* the name of a zone imported by its id was read *)
  | zoneName_of_imported_zone (zone : string)
  (* the marker of a list token was found where a string is resolved *)
  | list_token_in_scalar_context.

Inductive result (A : Type) : Type :=
  | Ok (a : A)
  | Err (e : library_error).

Arguments Ok {A} a.
Arguments Err {A} e.

(** Resolution of a string value, as synthesis does it. *)
Definition resolve_value (rho : token -> string) (v : string_value) : result string :=
  match v with
  | Template t => Ok (resolve rho t)
  | Array_join _ _ => Err list_token_in_scalar_context
  end.

(** ** The [cdk] core *)

Module cdk.

Inductive Duration : Type :=
  | days (n : Z)
  | minutes (n : Z).

Inductive RemovalPolicy : Type := DESTROY | RETAIN | SNAPSHOT.

Record Environment : Type := {
  account : option string;
  region : option string;
}.

Record CfnOutputProps : Type := {
  value : string_value;
  description : string;
}.

End cdk.

(** ** [aws-iam] *)

Module iam.

Inductive Effect : Type := ALLOW | DENY.

Inductive Principal : Type :=
  | ServicePrincipal (service : string).

Record PolicyStatement : Type := {
  sid : option string;
  effect : Effect;
  principals : list Principal;
  actions : list string;
  resources : list tstring;
  (* operator, then the condition keys with their values *)
  conditions : list (string * list (string * tstring));
}.

Record UserProps : Type := {
  userName : string;
}.

Record PolicyProps : Type := {
  statements : list PolicyStatement;
}.

End iam.

(** ** [aws-s3] *)

Module s3.

Inductive BlockPublicAccess : Type := BLOCK_ALL | BLOCK_ACLS.

Record LifecycleRule : Type := {
  id : string;
  enabled : bool;
  noncurrentVersionExpiration : cdk.Duration;
}.

Record BucketProps : Type := {
  bucketName : string;
  blockPublicAccess : BlockPublicAccess;
  removalPolicy : cdk.RemovalPolicy;
  autoDeleteObjects : bool;
  versioned : bool;
  lifecycleRules : list LifecycleRule;
  serverAccessLogsBucket : option string;
  serverAccessLogsPrefix : string;
}.

End s3.

(** ** [aws-route53] and [aws-route53-targets] *)

Module route53.

Record HostedZoneProps : Type := {
  zoneName : string;
}.

(** [RecordTarget.fromAlias (new CloudFrontTarget dist)] *)
Inductive RecordTarget : Type :=
  | fromAlias_CloudFrontTarget (dist : string).

Record ARecordProps : Type := {
  zone : string;
  recordName : string;
  target : RecordTarget;
}.

End route53.

(** ** [aws-certificatemanager] *)

Module acm.

Inductive CertificateValidation : Type :=
  | fromDns (hostedZone : string).

Record CertificateProps : Type := {
  domainName : string;
  subjectAlternativeNames : list string;
  validation : CertificateValidation;
}.

End acm.

(** ** [aws-cloudfront] and [aws-cloudfront-origins] *)

Module cloudfront.

Inductive ViewerProtocolPolicy : Type := HTTPS_ONLY | REDIRECT_TO_HTTPS | ALLOW_ALL.
Inductive AllowedMethods : Type := ALLOW_GET_HEAD | ALLOW_GET_HEAD_OPTIONS | ALLOW_ALL_METHODS.
Inductive CachePolicy : Type := CACHING_OPTIMIZED | CACHING_DISABLED.
Inductive PriceClass : Type := PRICE_CLASS_100 | PRICE_CLASS_200 | PRICE_CLASS_ALL.
Inductive SecurityPolicyProtocol : Type := TLS_V1_2_2019 | TLS_V1_2_2021.
Inductive HeadersFrameOption : Type := FRAME_DENY | FRAME_SAMEORIGIN.
Inductive HeadersReferrerPolicy : Type :=
  | NO_REFERRER
  | SAME_ORIGIN
  | STRICT_ORIGIN_WHEN_CROSS_ORIGIN.

Record S3OriginAccessControlProps : Type := {
  description : string;
}.

(** [S3BucketOrigin.withOriginAccessControl bucket { originAccessControl }] *)
Record S3BucketOrigin : Type := {
  bucket : string;
  originAccessControl : string;
}.

Record StrictTransportSecurity : Type := {
  accessControlMaxAge : cdk.Duration;
  includeSubdomains : bool;
  preload : bool;
  sts_override : bool;
}.

Record ContentTypeOptions : Type := { cto_override : bool }.

Record FrameOptions : Type := {
  frameOption : HeadersFrameOption;
  fo_override : bool;
}.

Record ReferrerPolicy : Type := {
  referrerPolicy : HeadersReferrerPolicy;
  rp_override : bool;
}.

Record SecurityHeadersBehavior : Type := {
  strictTransportSecurity : StrictTransportSecurity;
  contentTypeOptions : ContentTypeOptions;
  frameOptions : FrameOptions;
  referrerPolicy_ : ReferrerPolicy;
}.

Record CustomHeader : Type := {
  header : string;
  value : string;
  override : bool;
}.

Record ResponseHeadersPolicyProps : Type := {
  rhp_comment : string;
  securityHeadersBehavior : SecurityHeadersBehavior;
  customHeaders : list CustomHeader;
}.

Record BehaviorOptions : Type := {
  origin : S3BucketOrigin;
  viewerProtocolPolicy : ViewerProtocolPolicy;
  allowedMethods : AllowedMethods;
  compress : bool;
  cachePolicy : CachePolicy;
  responseHeadersPolicy : string;
}.

Record ErrorResponse : Type := {
  httpStatus : Z;
  responseHttpStatus : Z;
  responsePagePath : string;
  ttl : cdk.Duration;
}.

Record DistributionProps : Type := {
  defaultBehavior : BehaviorOptions;
  domainNames : list string;
  certificate : string;
  priceClass : PriceClass;
  defaultRootObject : string;
  errorResponses : list ErrorResponse;
  enableLogging : bool;
  logBucket : string;
  logFilePrefix : string;
  logIncludesCookies : bool;
  minimumProtocolVersion : SecurityPolicyProtocol;
  comment : string;
}.

End cloudfront.

(** ** Constructs and the stack under construction *)

(** One child of the stack.  A bucket carries the statements the source
    adds to its resource policy, a user the ids of the policies the source
    attaches to it.  [Unfinished] is a construct whose constructor threw
    after it had attached itself to the stack: it is a child and declares
    nothing. *)
Inductive construct : Type :=
  | Bucket (props : s3.BucketProps) (resourcePolicy : list iam.PolicyStatement)
  | S3OriginAccessControl (props : cloudfront.S3OriginAccessControlProps)
  | HostedZone (props : route53.HostedZoneProps)
  | HostedZone_fromHostedZoneId (hostedZoneId : string)
  | Certificate (props : acm.CertificateProps)
  | ResponseHeadersPolicy (props : cloudfront.ResponseHeadersPolicyProps)
  | Distribution (props : cloudfront.DistributionProps)
  | ARecord (props : route53.ARecordProps)
  | User (props : iam.UserProps) (inlinePolicies : list string)
  | Policy (props : iam.PolicyProps)
  | CfnOutput (props : cdk.CfnOutputProps)
  | Unfinished.

(** The children of a scope, in declaration order. *)
Abbreviation children := (list (string * construct)).

Fixpoint tryFindChild (id : string) (cs : children) : option construct :=
  match cs with
  | [] => None
  | (i, c) :: cs' => if String.eqb i id then Some c else tryFindChild id cs'
  end.

Definition ids (cs : children) : list string := cs.*1.

(** Statements of the source run in sequence against the stack: a
    computation takes the children declared so far and returns a value or
    the error thrown, with the children declared by then. *)
Definition Synth (A : Type) : Type := children -> result A * children.

Definition ret {A} (a : A) : Synth A := fun cs => (Ok a, cs).

Definition bind {A B} (m : Synth A) (k : A -> Synth B) : Synth B :=
  fun cs =>
    match m cs with
    | (Ok a, cs') => k a cs'
    | (Err e, cs') => (Err e, cs')
    end.

Notation "'let!' x ':=' m 'in' k" := (bind m (fun x => k))
  (at level 10, x name, m at level 100, k at level 200).
Notation "m ';;;' k" := (bind m (fun _ => k))
  (at level 100, k at level 200, right associativity).

(** [new C(this, id, props)]: the construct becomes the last child of the
    stack, and the expression evaluates to a handle on it (its id).  The
    library throws when the stack already has a child with this id. *)
Definition new (id : string) (c : construct) : Synth string :=
  fun cs =>
    match tryFindChild id cs with
    | Some _ => (Err (duplicate_construct_id id), cs)
    | None => (Ok id, cs ++ [(id, c)])
    end.

(** [s.endsWith('.')] *)
Fixpoint endsWith_dot (s : string) : bool :=
  match s with
  | EmptyString => false
  | String _ s' =>
      match s' with
      | EmptyString => String.eqb s "."
      | String _ _ => endsWith_dot s'
      end
  end.

(** [new route53.ARecord(this, id, props)].  The record attaches itself to
    the stack and then makes its name fully qualified: a name that ends in
    a dot is taken as it is, any other one is completed with the name of
    the zone.  A zone imported by its id has no name to read, and reading it
    throws. *)
Definition new_ARecord (id : string) (p : route53.ARecordProps) : Synth string :=
  fun cs =>
    match tryFindChild id cs with
    | Some _ => (Err (duplicate_construct_id id), cs)
    | None =>
        match tryFindChild (route53.zone p) cs with
        | Some (HostedZone_fromHostedZoneId _) =>
            if endsWith_dot (route53.recordName p)
            then (Ok id, cs ++ [(id, ARecord p)])
            else (Err (zoneName_of_imported_zone (route53.zone p)),
                  cs ++ [(id, Unfinished)])
        | _ => (Ok id, cs ++ [(id, ARecord p)])
        end
    end.

(** In-place update of the construct behind a handle. *)
Definition update (f : construct -> construct) (id : string) : Synth unit :=
  fun cs =>
    (Ok tt, map (fun ic : string * construct =>
                   if String.eqb ic.1 id then (ic.1, f ic.2) else ic) cs).

(** [bucket.addToResourcePolicy(statement)] *)
Definition addToResourcePolicy (bucket : string) (st : iam.PolicyStatement) : Synth unit :=
  update (fun c => match c with
                   | Bucket p pol => Bucket p (pol ++ [st])
                   | _ => c
                   end) bucket.

(** [user.attachInlinePolicy(policy)] *)
Definition attachInlinePolicy (user policy : string) : Synth unit :=
  update (fun c => match c with
                   | User p ps => User p (ps ++ [policy])
                   | _ => c
                   end) user.

(** JavaScript truthiness of a value that is [undefined] or a string: the
    only falsy ones are [undefined] and the empty string.  [narrow v] is the
    string a truthy [v] holds, as the branches guarded by [v] see it. *)
Definition narrow (v : option string) : option string :=
  match v with
  | Some s => if String.eqb s "" then None else Some s
  | None => None
  end.

Definition truthy (v : option string) : bool :=
  match narrow v with
  | Some _ => true
  | None => false
  end.

(** ** [lib/infrastructure-stack.ts] *)

Record InfrastructureStackProps : Type := {
  domainName : string;
  hostedZoneId : option string;
  env : cdk.Environment;
  crossRegionReferences : bool;
}.

(** [this.account]: the account of the environment the stack was given, a
    token when the environment names none. *)
Definition account_of (e : cdk.Environment) : part :=
  match cdk.account e with
  | Some a => Lit a
  | None => Tok this_account
  end.

Definition createSecurityHeadersPolicy : Synth string :=
  new "SecurityHeadersPolicy" (ResponseHeadersPolicy {|
    cloudfront.rhp_comment := "Security headers for static website";
    cloudfront.securityHeadersBehavior := {|
      cloudfront.strictTransportSecurity := {|
        cloudfront.accessControlMaxAge := cdk.days 365;
        cloudfront.includeSubdomains := true;
        cloudfront.preload := true;
        cloudfront.sts_override := true |};
      cloudfront.contentTypeOptions := {| cloudfront.cto_override := true |};
      cloudfront.frameOptions := {|
        cloudfront.frameOption := cloudfront.FRAME_DENY;
        cloudfront.fo_override := true |};
      cloudfront.referrerPolicy_ := {|
        cloudfront.referrerPolicy := cloudfront.STRICT_ORIGIN_WHEN_CROSS_ORIGIN;
        cloudfront.rp_override := true |} |};
    cloudfront.customHeaders := [
      {| cloudfront.header := "X-Content-Type-Options";
         cloudfront.value := "nosniff";
         cloudfront.override := true |};
      {| cloudfront.header := "X-Frame-Options";
         cloudfront.value := "DENY";
         cloudfront.override := true |};
      {| cloudfront.header := "X-XSS-Protection";
         cloudfront.value := "1; mode=block";
         cloudfront.override := true |};
      {| cloudfront.header := "Permissions-Policy";
         cloudfront.value := "geolocation=(), microphone=(), camera=()";
         cloudfront.override := true |} ] |}).

(** [`arn:aws:cloudfront::${this.account}:distribution/${distribution.distributionId}`] *)
Definition SourceArn (account : part) (distribution : string) : tstring :=
  [Lit "arn:aws:cloudfront::"; account;
   Lit ":distribution/"; Tok (distributionId distribution)].

(** The statement that lets CloudFront read the bucket's objects. *)
Definition AllowCloudFrontServicePrincipal (account : part)
    (websiteBucket distribution : string) : iam.PolicyStatement :=
  {| iam.sid := Some "AllowCloudFrontServicePrincipal";
     iam.effect := iam.ALLOW;
     iam.principals := [iam.ServicePrincipal "cloudfront.amazonaws.com"];
     iam.actions := ["s3:GetObject"];
     iam.resources := [[Tok (arnForObjects websiteBucket "*")]];
     iam.conditions :=
       [("StringEquals", [("AWS:SourceArn", SourceArn account distribution)])] |}.

(** The body of the constructor, statement by statement. *)
Definition constructor (props : InfrastructureStackProps) : Synth unit :=
  let domainName := domainName props in
  let hostedZoneId := hostedZoneId props in
  let! websiteBucket := new "WebsiteBucket" (Bucket {|
    s3.bucketName := domainName +:+ "-website";
    s3.blockPublicAccess := s3.BLOCK_ALL;
    s3.removalPolicy := cdk.DESTROY;
    s3.autoDeleteObjects := true;
    s3.versioned := true;
    s3.lifecycleRules := [
      {| s3.id := "DeleteOldVersions";
         s3.enabled := true;
         s3.noncurrentVersionExpiration := cdk.days 30 |} ];
    s3.serverAccessLogsBucket := None; (* not given *)
    s3.serverAccessLogsPrefix := "access-logs/" |} []) in
  let! originAccessControl := new "OriginAccessControl" (S3OriginAccessControl {|
    cloudfront.description := "OAC for " +:+ domainName |}) in
  let! hostedZone :=
    match narrow hostedZoneId with
    | Some hostedZoneId => new "HostedZone" (HostedZone_fromHostedZoneId hostedZoneId)
    | None => new "HostedZone" (HostedZone {| route53.zoneName := domainName |})
    end in
  let! certificate := new "Certificate" (Certificate {|
    acm.domainName := domainName;
    acm.subjectAlternativeNames := ["www." +:+ domainName];
    acm.validation := acm.fromDns hostedZone |}) in
  let! responseHeadersPolicy := createSecurityHeadersPolicy in
  let! distribution := new "Distribution" (Distribution {|
    cloudfront.defaultBehavior := {|
      cloudfront.origin := {|
        cloudfront.bucket := websiteBucket;
        cloudfront.originAccessControl := originAccessControl |};
      cloudfront.viewerProtocolPolicy := cloudfront.REDIRECT_TO_HTTPS;
      cloudfront.allowedMethods := cloudfront.ALLOW_GET_HEAD_OPTIONS;
      cloudfront.compress := true;
      cloudfront.cachePolicy := cloudfront.CACHING_OPTIMIZED;
      cloudfront.responseHeadersPolicy := responseHeadersPolicy |};
    cloudfront.domainNames := [domainName; "www." +:+ domainName];
    cloudfront.certificate := certificate;
    cloudfront.priceClass := cloudfront.PRICE_CLASS_100;
    cloudfront.defaultRootObject := "index.html";
    cloudfront.errorResponses := [
      {| cloudfront.httpStatus := 404;
         cloudfront.responseHttpStatus := 404;
         cloudfront.responsePagePath := "/index.html";
         cloudfront.ttl := cdk.minutes 5 |};
      {| cloudfront.httpStatus := 403;
         cloudfront.responseHttpStatus := 404;
         cloudfront.responsePagePath := "/index.html";
         cloudfront.ttl := cdk.minutes 5 |} ];
    cloudfront.enableLogging := true;
    cloudfront.logBucket := websiteBucket;
    cloudfront.logFilePrefix := "cloudfront-logs/";
    cloudfront.logIncludesCookies := false;
    cloudfront.minimumProtocolVersion := cloudfront.TLS_V1_2_2021;
    cloudfront.comment := "CloudFront distribution for " +:+ domainName |}) in
  addToResourcePolicy websiteBucket
    (AllowCloudFrontServicePrincipal (account_of (env props))
       websiteBucket distribution) ;;;
  new_ARecord "ARecord" {|
    route53.zone := hostedZone;
    route53.recordName := domainName;
    route53.target := route53.fromAlias_CloudFrontTarget distribution |} ;;;
  new_ARecord "WwwARecord" {|
    route53.zone := hostedZone;
    route53.recordName := "www." +:+ domainName;
    route53.target := route53.fromAlias_CloudFrontTarget distribution |} ;;;
  let! deploymentUser := new "DeploymentUser" (User {|
    iam.userName := domainName +:+ "-deployment-user" |} []) in
  let! deploymentPolicy := new "DeploymentPolicy" (Policy {|
    iam.statements := [
      {| iam.sid := None;
         iam.effect := iam.ALLOW;
         iam.principals := [];
         iam.actions := ["s3:PutObject"; "s3:PutObjectAcl"; "s3:GetObject";
                         "s3:DeleteObject"; "s3:ListBucket"];
         iam.resources := [[Tok (bucketArn websiteBucket)];
                           [Tok (arnForObjects websiteBucket "*")]];
         iam.conditions := [] |};
      {| iam.sid := None;
         iam.effect := iam.ALLOW;
         iam.principals := [];
         iam.actions := ["cloudfront:CreateInvalidation"];
         iam.resources := [[Tok (distributionArn distribution)]];
         iam.conditions := [] |} ] |}) in
  attachInlinePolicy deploymentUser deploymentPolicy ;;;
  new "WebsiteBucketName" (CfnOutput {|
    cdk.value := Template [Tok (bucketName websiteBucket)];
    cdk.description := "Name of the S3 bucket for website content" |}) ;;;
  new "CloudFrontDistributionId" (CfnOutput {|
    cdk.value := Template [Tok (distributionId distribution)];
    cdk.description := "CloudFront Distribution ID" |}) ;;;
  new "CloudFrontDistributionDomainName" (CfnOutput {|
    cdk.value := Template [Tok (distributionDomainName distribution)];
    cdk.description := "CloudFront Distribution Domain Name" |}) ;;;
  new "DeploymentUserName" (CfnOutput {|
    cdk.value := Template [Tok (userName deploymentUser)];
    cdk.description := "Name of the deployment user for GitHub Actions" |}) ;;;
  new "WebsiteUrl" (CfnOutput {|
    cdk.value := Template [Lit ("https://" +:+ domainName)];
    cdk.description := "Website URL" |}) ;;;
  if negb (truthy hostedZoneId) then
    new "NameServers" (CfnOutput {|
      cdk.value := Array_join (hostedZoneNameServers hostedZone) ", ";
      cdk.description :=
        "Name servers for the hosted zone (configure these in domain registrar)" |}) ;;;
    ret tt
  else ret tt.

(** A stack: what [super(scope, id, props)] keeps of the props, and the
    children the constructor declared, all of them when it returned, the
    ones it got to when it threw. *)
Record Stack : Type := {
  stack_env : cdk.Environment;
  stack_crossRegionReferences : bool;
  node : children;
}.

Definition InfrastructureStack (props : InfrastructureStackProps) : Stack :=
  {| stack_env := env props;
     stack_crossRegionReferences := crossRegionReferences props;
     node := (constructor props []).2 |}.

(** How the constructor ends. *)
Definition constructed (props : InfrastructureStackProps) : result unit :=
  (constructor props []).1.

(** ** [bin/infrastructure.ts] *)

(** The construct tree below the app. *)
Record App : Type := {
  stacks : list (string * Stack);
}.

(** How the entrypoint ends: it returns, it throws its own error, or an
    error of the library passes through it. *)
Inductive completion : Type :=
  | Returned
  | Thrown (message : string)
  | ThrownByLibrary (e : library_error).

Definition domainName_required : string :=
  "domainName context variable is required. Use: cdk deploy -c domainName=example.com".

(** The entrypoint, run with the context of the command line ([-c key=value])
    and the process environment.  It returns the tree built by the time it
    ends, with the way it ended.  A stack is a child of the app from the
    start of its constructor. *)
Definition infrastructure (context process_env : gmap string string) : App * completion :=
  let app := {| stacks := [] |} in
  let domainName := context !! "domainName" in
  let hostedZoneId := context !! "hostedZoneId" in
  match narrow domainName with
  | None => (app, Thrown domainName_required)
  | Some domainName =>
      let props := {|
        domainName := domainName;
        hostedZoneId := hostedZoneId;
        env := {| cdk.account := process_env !! "CDK_DEFAULT_ACCOUNT";
                  cdk.region := Some "us-east-1" |};
        crossRegionReferences := true |} in
      ({| stacks := stacks app ++ [("PortfolioStack", InfrastructureStack props)] |},
       match constructed props with
       | Ok _ => Returned
       | Err e => ThrownByLibrary e
       end)
  end.

(** ** The dependency-update configuration ([dependabot.yml]) *)

Module dependabot.

Record Schedule : Type := {
  interval : string;
}.

Record CommitMessage : Type := {
  prefix : string;
  include : option string;
}.

Record Update : Type := {
  package_ecosystem : string;
  directory : string;
  schedule : Schedule;
  open_pull_requests_limit : Z;
  reviewers : list string;
  assignees : list string;
  commit_message : CommitMessage;
}.

Record Config : Type := {
  version : Z;
  updates : list Update;
}.

End dependabot.

(** Main Astro application dependencies *)
Definition npm_root_entry : dependabot.Update :=
  {| dependabot.package_ecosystem := "npm";
     dependabot.directory := "/";
     dependabot.schedule := {| dependabot.interval := "weekly" |};
     dependabot.open_pull_requests_limit := 10;
     dependabot.reviewers := ["caleb-wells"];
     dependabot.assignees := ["caleb-wells"];
     dependabot.commit_message :=
       {| dependabot.prefix := "deps"; dependabot.include := Some "scope" |} |}.

(** CDK infrastructure dependencies *)
Definition npm_infrastructure_entry : dependabot.Update :=
  {| dependabot.package_ecosystem := "npm";
     dependabot.directory := "/infrastructure";
     dependabot.schedule := {| dependabot.interval := "weekly" |};
     dependabot.open_pull_requests_limit := 5;
     dependabot.reviewers := ["caleb-wells"];
     dependabot.assignees := ["caleb-wells"];
     dependabot.commit_message :=
       {| dependabot.prefix := "deps(infra)"; dependabot.include := Some "scope" |} |}.

(** GitHub Actions dependencies; the commit message has a prefix and no
    [include] key. *)
Definition github_actions_entry : dependabot.Update :=
  {| dependabot.package_ecosystem := "github-actions";
     dependabot.directory := "/";
     dependabot.schedule := {| dependabot.interval := "monthly" |};
     dependabot.open_pull_requests_limit := 3;
     dependabot.reviewers := ["caleb-wells"];
     dependabot.assignees := ["caleb-wells"];
     dependabot.commit_message :=
       {| dependabot.prefix := "ci"; dependabot.include := None |} |}.

Definition dependabot_yml : dependabot.Config :=
  {| dependabot.version := 2;
     dependabot.updates :=
       [npm_root_entry; npm_infrastructure_entry; github_actions_entry] |}.

(** ** Vocabulary of the statements *)

(** A context value is absent when it is [undefined] or the empty string. *)
Definition absent (v : option string) : Prop := v = None \/ v = Some "".

(** The declarations of one kind among the children, with their ids. *)
Definition declared {A} (sel : construct -> option A) (cs : children)
  : list (string * A) :=
  omap (fun ic : string * construct => pair ic.1 <$> sel ic.2) cs.

Definition as_Bucket (c : construct) : option s3.BucketProps :=
  match c with Bucket p _ => Some p | _ => None end.
Definition as_Distribution (c : construct) : option cloudfront.DistributionProps :=
  match c with Distribution p => Some p | _ => None end.
Definition as_Certificate (c : construct) : option acm.CertificateProps :=
  match c with Certificate p => Some p | _ => None end.
Definition as_ARecord (c : construct) : option route53.ARecordProps :=
  match c with ARecord p => Some p | _ => None end.
Definition as_CfnOutput (c : construct) : option cdk.CfnOutputProps :=
  match c with CfnOutput p => Some p | _ => None end.

(** The ARN of the CloudFront distribution [id] of [account]. *)
Definition cloudfront_distribution_arn (account id : string) : string :=
  "arn:aws:cloudfront::" +:+ account +:+ ":distribution/" +:+ id.




(** The props the entrypoint passes to the stack for the domain [d]. *)
Definition entry_props (context process_env : gmap string string) (d : string)
  : InfrastructureStackProps :=
  {| domainName := d;
     hostedZoneId := context !! "hostedZoneId";
     env := {| cdk.account := process_env !! "CDK_DEFAULT_ACCOUNT";
               cdk.region := Some "us-east-1" |};
     crossRegionReferences := true |}.

(** Deploy-time values and props used to run the statements below. *)
Definition example_rho (t : token) : string :=
  match t with
  | this_account => "123456789012"
  | distributionId _ => "E2QWRUHAPOMQZL"
  | _ => ""
  end.

Definition example_props : InfrastructureStackProps :=
  entry_props {[ "hostedZoneId" := "Z0123456789ABC" ]}
              {[ "CDK_DEFAULT_ACCOUNT" := "123456789012" ]} "example.com".

(** Two command lines: one that names an existing zone, one that does not. *)
Definition context_existing_zone : gmap string string :=
  {[ "domainName" := "example.com"; "hostedZoneId" := "Z0123456789ABC" ]}.

Definition context_new_zone : gmap string string :=
  {[ "domainName" := "example.com" ]}.

Definition as_User (c : construct) : option iam.UserProps :=
  match c with User p _ => Some p | _ => None end.
Definition as_ResponseHeadersPolicy (c : construct)
  : option cloudfront.ResponseHeadersPolicyProps :=
  match c with ResponseHeadersPolicy p => Some p | _ => None end.

(** The physical names the stack fixes. *)
Definition bucket_names (cs : children) : list string :=
  s3.bucketName <$> (declared as_Bucket cs).*2.
Definition user_names (cs : children) : list string :=
  iam.userName <$> (declared as_User cs).*2.

(** Resolution of the outputs of a stack, in order, as synthesis does it
    once the entrypoint has returned: the first value that cannot be
    resolved ends it. *)
Fixpoint resolve_outputs (rho : token -> string)
    (outputs : list (string * cdk.CfnOutputProps)) : result (list (string * string)) :=
  match outputs with
  | [] => Ok []
  | (id, o) :: outputs' =>
      match resolve_value rho (cdk.value o) with
      | Err e => Err e
      | Ok v =>
          match resolve_outputs rho outputs' with
          | Err e => Err e
          | Ok vs => Ok ((id, v) :: vs)
          end
      end
  end.

(** * Properties *)

Section Helpers.

Lemma narrow_None (v : option string) : narrow v = None <-> absent v.
Proof.
  unfold absent. destruct v as [[|a s]|]; simpl; split; intros H;
    try done; try (right; done); try (left; done);
    destruct H as [H|H]; discriminate.
Qed.

Lemma narrow_Some (v : option string) (s : string) :
  narrow v = Some s <-> v = Some s /\ s <> "".
Proof.
  destruct v as [[|a t]|]; simpl; split; try done.
  - intros [[= <-] H]. done.
  - intros [= <-]. done.
  - intros [[= <-] _]. done.
  - intros [[=] _].
Qed.

Lemma not_absent (v : option string) :
  ~ absent v -> exists s, narrow v = Some s /\ v = Some s.
Proof.
  intros H. destruct (narrow v) as [s|] eqn:E.
  - exists s. split; [done|]. by apply narrow_Some in E as [-> _].
  - apply narrow_None in E. done.
Qed.

End Helpers.

(** ** The constructor *)

Lemma endsWith_dot_www (d : string) :
  endsWith_dot d = true -> endsWith_dot ("www." +:+ d) = true.
Proof. destruct d as [|a d]; [discriminate|]. intros H. exact H. Qed.

(** Runs the constructor on [props], one case for each way it can go: a new
    zone; an imported zone with a domain name that ends in a dot; an
    imported zone with any other domain name, where it throws. *)
Ltac synth_cases props :=
  let d := fresh "d" in
  let hz := fresh "hz" in
  let acct := fresh "acct" in
  let reg := fresh "reg" in
  let crr := fresh "crr" in
  let Hzone := fresh "Hzone" in
  let Hdot := fresh "Hdot" in
  destruct props as [d hz [acct reg] crr];
  cbv [InfrastructureStack constructed constructor truthy node domainName
       hostedZoneId env crossRegionReferences account_of cdk.account] in *;
  destruct (narrow hz) eqn:Hzone; try discriminate;
  destruct acct;
  cbv -[endsWith_dot String.append];
  try (destruct (endsWith_dot d) eqn:Hdot;
       rewrite ?(endsWith_dot_www d Hdot);
       cbv -[endsWith_dot String.append]).

(** ** The entrypoint *)

Section Entrypoint.

Variables context process_env : gmap string string.

Lemma infrastructure_absent :
  absent (context !! "domainName") ->
  infrastructure context process_env
  = ({| stacks := [] |}, Thrown domainName_required).
Proof.
  intros H. apply narrow_None in H. unfold infrastructure. by rewrite H.
Qed.

Lemma infrastructure_present (d : string) :
  narrow (context !! "domainName") = Some d ->
  infrastructure context process_env
  = ({| stacks :=
          [("PortfolioStack",
            InfrastructureStack (entry_props context process_env d))] |},
     match constructed (entry_props context process_env d) with
     | Ok _ => Returned
     | Err e => ThrownByLibrary e
     end).
Proof. intros H. unfold infrastructure. by rewrite H. Qed.

End Entrypoint.

(** C1. When the [domainName] context value is absent ([undefined] or the
    empty string) the entrypoint throws its error with no stack, hence no
    resource, constructed; when it is present the entrypoint instantiates
    the stack for that domain and does not end in an error of its own. *)
Theorem domainName_required_fail_fast (context process_env : gmap string string) :
  (absent (context !! "domainName") ->
     infrastructure context process_env
     = ({| stacks := [] |}, Thrown domainName_required))
  /\ (~ absent (context !! "domainName") ->
        exists d,
          context !! "domainName" = Some d
          /\ stacks (infrastructure context process_env).1
             = [("PortfolioStack",
                 InfrastructureStack (entry_props context process_env d))]
          /\ forall message,
               (infrastructure context process_env).2 <> Thrown message).
Proof.
  split.
  - apply infrastructure_absent.
  - intros H. destruct (not_absent _ H) as (d & Hn & Hd).
    exists d. split; [done|]. rewrite (infrastructure_present _ _ d Hn).
    split; [done|]. intros message. cbn.
    by destruct (constructed _).
Qed.

Lemma domainName_required_fail_fast_witness :
  infrastructure ∅ ∅ = ({| stacks := [] |}, Thrown domainName_required)
  /\ infrastructure {[ "domainName" := "" ]} ∅
     = ({| stacks := [] |}, Thrown domainName_required)
  /\ exists d,
       context_new_zone !! "domainName" = Some d
       /\ stacks (infrastructure context_new_zone ∅).1
          = [("PortfolioStack", InfrastructureStack (entry_props context_new_zone ∅ d))]
       /\ forall message, (infrastructure context_new_zone ∅).2 <> Thrown message.
Proof.
  split; [|split].
  - apply (domainName_required_fail_fast ∅ ∅). left. reflexivity.
  - apply (domainName_required_fail_fast {[ "domainName" := "" ]} ∅).
    right. reflexivity.
  - apply (domainName_required_fail_fast context_new_zone ∅).
    intros [H|H]; vm_compute in H; discriminate H.
Defined.

(** ** The stack *)

Section Stack.

Variable props : InfrastructureStackProps.

Local Abbreviation cs := (node (InfrastructureStack props)).


Lemma bucket_names_of : bucket_names cs = [domainName props +:+ "-website"].
Proof. synth_cases props; done. Qed.

(** The constructs declared after the records, when the zone is new. *)
Lemma user_names_of :
  absent (hostedZoneId props) ->
  user_names cs = [domainName props +:+ "-deployment-user"].
Proof. intros H%narrow_None. synth_cases props; done. Qed.

(** No two children share an id: no declaration is a duplicate of an
    earlier one. *)
Lemma ids_NoDup : NoDup (ids cs).
Proof.
  synth_cases props;
    repeat (constructor; [by (intros Hin; repeat (inversion_clear Hin as [|? ? ? Hin'];
                                                  try rename Hin' into Hin)) |]);
    constructor.
Qed.

End Stack.

Lemma append_empty_r (s : string) : s +:+ "" = s.
Proof. induction s as [|a s IH]; [done|]. cbv [String.append]. by f_equal. Qed.

Lemma resolve_SourceArn (rho : token -> string) (account : part) (dist : string) :
  resolve rho (SourceArn account dist)
  = cloudfront_distribution_arn
      (resolve_part rho account) (rho (distributionId dist)).
Proof.
  unfold resolve, SourceArn, cloudfront_distribution_arn; cbn [foldr resolve_part].
  by rewrite append_empty_r.
Qed.

Lemma cloudfront_distribution_arn_inj (account : string) :
  Inj (=) (=) (cloudfront_distribution_arn account).
Proof.
  intros id1 id2 H. unfold cloudfront_distribution_arn in H.
  by repeat apply (inj (String.append _)) in H.
Qed.

(** C3. The source adds one statement to the bucket's resource policy: it
    allows the CloudFront service principal [s3:GetObject] on the bucket's
    objects under a [StringEquals] condition on [AWS:SourceArn].  The value
    of the condition is written with the account of the stack and reads the
    identifier of the one distribution the stack declares, so that,
    whatever values the tokens take at deploy time, it is the ARN of that
    distribution, and the ARN of a distribution with another identifier
    differs from it. *)
Theorem bucket_policy_source_arn (props : InfrastructureStackProps) :
  (exists bp dp,
     tryFindChild "WebsiteBucket" (node (InfrastructureStack props))
     = Some (Bucket bp [AllowCloudFrontServicePrincipal
                          (account_of (env props)) "WebsiteBucket" "Distribution"])
     /\ declared as_Distribution (node (InfrastructureStack props))
        = [("Distribution", dp)])
  /\ iam.effect (AllowCloudFrontServicePrincipal
                   (account_of (env props)) "WebsiteBucket" "Distribution")
     = iam.ALLOW
  /\ iam.principals (AllowCloudFrontServicePrincipal
                       (account_of (env props)) "WebsiteBucket" "Distribution")
     = [iam.ServicePrincipal "cloudfront.amazonaws.com"]
  /\ iam.actions (AllowCloudFrontServicePrincipal
                    (account_of (env props)) "WebsiteBucket" "Distribution")
     = ["s3:GetObject"]
  /\ iam.conditions (AllowCloudFrontServicePrincipal
                       (account_of (env props)) "WebsiteBucket" "Distribution")
     = [("StringEquals",
         [("AWS:SourceArn", SourceArn (account_of (env props)) "Distribution")])]
  /\ (forall rho,
        resolve rho (SourceArn (account_of (env props)) "Distribution")
        = cloudfront_distribution_arn
            (resolve_part rho (account_of (env props)))
            (rho (distributionId "Distribution")))
  /\ (forall rho other,
        other <> rho (distributionId "Distribution") ->
        cloudfront_distribution_arn (resolve_part rho (account_of (env props))) other
        <> resolve rho (SourceArn (account_of (env props)) "Distribution")).
Proof.
  split; [|do 4 (split; [reflexivity|]); split].
  - synth_cases props; do 2 eexists; split; reflexivity.
  - intros rho. apply resolve_SourceArn.
  - intros rho other Hne Heq. apply Hne.
    apply (cloudfront_distribution_arn_inj (resolve_part rho (account_of (env props)))).
    by rewrite Heq, resolve_SourceArn.
Qed.

Lemma bucket_policy_source_arn_witness :
  cloudfront_distribution_arn "123456789012" "E1OTHERDISTRIB"
  <> resolve example_rho (SourceArn (Lit "123456789012") "Distribution").
Proof.
  destruct (bucket_policy_source_arn example_props) as (_ & _ & _ & _ & _ & _ & H).
  apply (H example_rho "E1OTHERDISTRIB"). vm_compute. discriminate.
Defined.

(** C8. The stack declares one certificate: its domain name is the domain,
    its only alternative name is the [www] subdomain, and it is validated
    by DNS against the construct [HostedZone], which is the zone the stack
    resolved (the imported one when an identifier is supplied, the new one
    otherwise). *)
Theorem certificate_declaration (props : InfrastructureStackProps) :
  declared as_Certificate (node (InfrastructureStack props))
  = [("Certificate",
      {| acm.domainName := domainName props;
         acm.subjectAlternativeNames := ["www." +:+ domainName props];
         acm.validation := acm.fromDns "HostedZone" |})]
  /\ tryFindChild "HostedZone" (node (InfrastructureStack props))
     = Some (match narrow (hostedZoneId props) with
             | Some z => HostedZone_fromHostedZoneId z
             | None => HostedZone {| route53.zoneName := domainName props |}
             end).
Proof. synth_cases props; done. Qed.

(** C10. The stack declares one bucket, the website bucket.  Its server
    access logs are declared with the prefix [access-logs/] and no other
    destination bucket, and the distribution logs, without cookies, to that
    same bucket under the prefix [cloudfront-logs/]. *)
Theorem logs_target_website_bucket (props : InfrastructureStackProps) :
  exists bp dp,
    declared as_Bucket (node (InfrastructureStack props)) = [("WebsiteBucket", bp)]
    /\ s3.serverAccessLogsBucket bp = None
    /\ s3.serverAccessLogsPrefix bp = "access-logs/"
    /\ declared as_Distribution (node (InfrastructureStack props))
       = [("Distribution", dp)]
    /\ cloudfront.enableLogging dp = true
    /\ cloudfront.logBucket dp = "WebsiteBucket"
    /\ cloudfront.logFilePrefix dp = "cloudfront-logs/"
    /\ cloudfront.logIncludesCookies dp = false.
Proof.
  synth_cases props; do 2 eexists;
    (split; [reflexivity|]); do 2 (split; [reflexivity|]);
    (split; [reflexivity|]); done.
Qed.

(** C2 fails on the code at both ends.  With a zone identifier on the
    command line the constructor throws in the first A record, which needs
    the name of the zone: the stack is left with the children declared up
    to there, the record unfinished, no output.  Without one the entrypoint
    returns, having declared a new zone named after the domain and the
    [NameServers] output, but the value of that output is JavaScript's
    [join] on a list token, and resolving the outputs throws whatever the
    deploy-time values are. *)
Theorem hostedZone_resolution_defects :
  ((infrastructure context_existing_zone ∅).2
   = ThrownByLibrary (zoneName_of_imported_zone "HostedZone")
   /\ exists st,
        stacks (infrastructure context_existing_zone ∅).1 = [("PortfolioStack", st)]
        /\ tryFindChild "HostedZone" (node st)
           = Some (HostedZone_fromHostedZoneId "Z0123456789ABC")
        /\ ids (node st)
           = ["WebsiteBucket"; "OriginAccessControl"; "HostedZone"; "Certificate";
              "SecurityHeadersPolicy"; "Distribution"; "ARecord"]
        /\ tryFindChild "ARecord" (node st) = Some Unfinished
        /\ declared as_CfnOutput (node st) = [])
  /\ ((infrastructure context_new_zone ∅).2 = Returned
      /\ exists st,
           stacks (infrastructure context_new_zone ∅).1 = [("PortfolioStack", st)]
           /\ tryFindChild "HostedZone" (node st)
              = Some (HostedZone {| route53.zoneName := "example.com" |})
           /\ tryFindChild "NameServers" (node st)
              = Some (CfnOutput {|
                  cdk.value := Array_join (hostedZoneNameServers "HostedZone") ", ";
                  cdk.description :=
                    "Name servers for the hosted zone (configure these in domain registrar)" |})
           /\ forall rho,
                resolve_outputs rho (declared as_CfnOutput (node st))
                = Err list_token_in_scalar_context).
Proof.
  split; (split; [vm_compute; reflexivity|]); eexists;
    (split; [vm_compute; reflexivity|]); repeat split; vm_compute; reflexivity.
Qed.





(** C7. Every stack the entrypoint instantiates has, as its environment,
    the account read from [CDK_DEFAULT_ACCOUNT] in the process environment
    and the region [us-east-1]; and when the domain name is present the
    entrypoint instantiates such a stack. *)
Theorem stack_environment (context process_env : gmap string string) :
  (forall id st,
     (id, st) ∈ stacks (infrastructure context process_env).1 ->
     stack_env st
     = {| cdk.account := process_env !! "CDK_DEFAULT_ACCOUNT";
          cdk.region := Some "us-east-1" |})
  /\ (~ absent (context !! "domainName") ->
      exists st,
        stacks (infrastructure context process_env).1 = [("PortfolioStack", st)]).
Proof.
  split.
  - intros id st. destruct (narrow (context !! "domainName")) as [d|] eqn:H.
    + rewrite (infrastructure_present _ _ d H). cbn.
      intros [= _ ->]%list_elem_of_singleton. reflexivity.
    + rewrite infrastructure_absent by (by apply narrow_None). cbn.
      intros []%not_elem_of_nil.
  - intros H. destruct (not_absent _ H) as (d & Hn & _).
    rewrite (infrastructure_present _ _ d Hn). by eexists.
Qed.

Lemma stack_environment_witness :
  exists st,
    stacks (infrastructure {[ "domainName" := "example.com" ]}
                           {[ "CDK_DEFAULT_ACCOUNT" := "123456789012" ]}).1
    = [("PortfolioStack", st)]
    /\ stack_env st
       = {| cdk.account := Some "123456789012"; cdk.region := Some "us-east-1" |}.
Proof.
  destruct (stack_environment {[ "domainName" := "example.com" ]}
                              {[ "CDK_DEFAULT_ACCOUNT" := "123456789012" ]})
    as [Henv Hstack].
  destruct Hstack as [st Hst].
  { intros [H|H]; vm_compute in H; discriminate H. }
  exists st. split; [exact Hst|].
  apply (Henv "PortfolioStack"). rewrite Hst. left.
Defined.



(** ** The dependency-update configuration *)

(** As stated, C6 asks every entry for a scope convention of its own; the
    entry for the workflows sets a prefix only. *)
Lemma github_actions_entry_sets_no_scope :
  ~ (forall u, u ∈ dependabot.updates dependabot_yml ->
               is_Some (dependabot.include (dependabot.commit_message u))).
Proof.
  intros H.
  destruct (H (github_actions_entry)) as [x Hx]; [|discriminate Hx].
  do 2 right. left.
Qed.

(** C6, amended. The configuration has exactly three entries: npm at the
    root, npm under [/infrastructure], and github-actions at the root.
    Each entry has its own schedule interval, limit of open pull requests,
    reviewers, assignees and commit-message prefix; the two npm entries
    include the scope in the commit message and the github-actions entry
    has no such setting.  Replacing one entry leaves the others as they
    are. *)
Theorem dependabot_entries :
  length (dependabot.updates dependabot_yml) = 3%nat
  /\ (fun u => (dependabot.package_ecosystem u, dependabot.directory u))
       <$> dependabot.updates dependabot_yml
     = [("npm", "/"); ("npm", "/infrastructure"); ("github-actions", "/")]
  /\ (fun u => dependabot.interval (dependabot.schedule u))
       <$> dependabot.updates dependabot_yml
     = ["weekly"; "weekly"; "monthly"]
  /\ dependabot.open_pull_requests_limit <$> dependabot.updates dependabot_yml
     = [10; 5; 3]
  /\ dependabot.reviewers <$> dependabot.updates dependabot_yml
     = [["caleb-wells"]; ["caleb-wells"]; ["caleb-wells"]]
  /\ dependabot.assignees <$> dependabot.updates dependabot_yml
     = [["caleb-wells"]; ["caleb-wells"]; ["caleb-wells"]]
  /\ (fun u => dependabot.prefix (dependabot.commit_message u))
       <$> dependabot.updates dependabot_yml
     = ["deps"; "deps(infra)"; "ci"]
  /\ (fun u => dependabot.include (dependabot.commit_message u))
       <$> dependabot.updates dependabot_yml
     = [Some "scope"; Some "scope"; None]
  /\ (forall (i j : nat) (u : dependabot.Update),
        i <> j ->
        (<[i := u]> (dependabot.updates dependabot_yml)) !! j
        = dependabot.updates dependabot_yml !! j).
Proof.
  repeat (split; [reflexivity|]).
  intros i j u Hij. by apply list_lookup_insert_ne.
Qed.

Lemma dependabot_entries_witness :
  (<[0%nat := github_actions_entry]> (dependabot.updates dependabot_yml)) !! 1%nat
  = dependabot.updates dependabot_yml !! 1%nat.
Proof.
  destruct dependabot_entries as (_ & _ & _ & _ & _ & _ & _ & _ & H).
  apply H. discriminate.
Defined.

(** * Further properties *)

(** X2. An empty zone identifier on the command line is the same as none:
    the entrypoint builds the same tree and ends the same way. *)
Theorem empty_hostedZoneId_as_undefined (context process_env : gmap string string) :
  infrastructure (<["hostedZoneId" := ""]> context) process_env
  = infrastructure (delete "hostedZoneId" context) process_env.
Proof.
  unfold infrastructure.
  rewrite lookup_insert_ne, lookup_delete_ne by done.
  rewrite lookup_insert_eq, lookup_delete_eq.
  destruct (narrow (context !! "domainName")); reflexivity.
Qed.

Lemma append_length (s t : string) :
  String.length (s +:+ t) = (String.length s + String.length t)%nat.
Proof.
  induction s as [|a s IH]; [done|].
  cbv [String.append]; fold String.append. cbn. by rewrite IH.
Qed.

Lemma append_inj_r (t s1 s2 : string) : s1 +:+ t = s2 +:+ t -> s1 = s2.
Proof.
  revert s2. induction s1 as [|a s1 IH]; intros [|b s2] H; [done|..].
  - apply (f_equal String.length) in H.
    change ("" +:+ t) with t in H.
    rewrite (append_length (String b s2)) in H. cbn in H. lia.
  - apply (f_equal String.length) in H.
    change ("" +:+ t) with t in H.
    rewrite (append_length (String a s1)) in H. cbn in H. lia.
  - cbv [String.append] in H; fold String.append in H.
    injection H as -> H. f_equal. by apply IH.
Qed.

(** X4. Stacks for different domains fix different bucket names, and, when
    their constructors get to the deployment user (no zone identifier is
    supplied), different user names: the suffix appended to the domain
    never makes two of them meet. *)
Theorem physical_names_distinct (props1 props2 : InfrastructureStackProps) :
  domainName props1 <> domainName props2 ->
  bucket_names (node (InfrastructureStack props1))
  <> bucket_names (node (InfrastructureStack props2))
  /\ (absent (hostedZoneId props1) -> absent (hostedZoneId props2) ->
      user_names (node (InfrastructureStack props1))
      <> user_names (node (InfrastructureStack props2))).
Proof.
  intros Hne. split.
  - rewrite !bucket_names_of. intros [= H]. by apply append_inj_r in H.
  - intros H1 H2. rewrite !user_names_of by done.
    intros [= H]. by apply append_inj_r in H.
Qed.

Lemma physical_names_distinct_witness :
  bucket_names (node (InfrastructureStack (entry_props ∅ ∅ "example.com")))
  <> bucket_names (node (InfrastructureStack (entry_props ∅ ∅ "example.org")))
  /\ user_names (node (InfrastructureStack (entry_props ∅ ∅ "example.com")))
     <> user_names (node (InfrastructureStack (entry_props ∅ ∅ "example.org"))).
Proof.
  destruct (physical_names_distinct (entry_props ∅ ∅ "example.com")
                                    (entry_props ∅ ∅ "example.org")) as [Hb Hu].
  { vm_compute. discriminate. }
  split; [exact Hb|]. apply Hu; left; reflexivity.
Defined.

(** X5. The names the distribution answers to are the names of the
    certificate it uses (its domain name followed by its alternative
    names); when the constructor gets to the A records (no zone identifier
    is supplied) they are also the names of the records, in the same
    order. *)
Theorem aliases_covered (props : InfrastructureStackProps) :
  exists dp cp,
    declared as_Distribution (node (InfrastructureStack props))
    = [("Distribution", dp)]
    /\ tryFindChild (cloudfront.certificate dp) (node (InfrastructureStack props))
       = Some (Certificate cp)
    /\ cloudfront.domainNames dp
       = acm.domainName cp :: acm.subjectAlternativeNames cp
    /\ (absent (hostedZoneId props) ->
        route53.recordName
          <$> (declared as_ARecord (node (InfrastructureStack props))).*2
        = cloudfront.domainNames dp).
Proof.
  synth_cases props; do 2 eexists;
    (split; [reflexivity|]); (split; [reflexivity|]); (split; [reflexivity|]);
    intros Habs%narrow_None; first [congruence | reflexivity].
Qed.

Lemma aliases_covered_witness :
  exists dp,
    declared as_Distribution
      (node (InfrastructureStack (entry_props ∅ ∅ "example.com")))
    = [("Distribution", dp)]
    /\ route53.recordName
         <$> (declared as_ARecord
                (node (InfrastructureStack (entry_props ∅ ∅ "example.com")))).*2
       = cloudfront.domainNames dp.
Proof.
  destruct (aliases_covered (entry_props ∅ ∅ "example.com"))
    as (dp & cp & Hd & _ & _ & Hr).
  exists dp. split; [exact Hd|]. apply Hr. left. reflexivity.
Defined.

(** X7. When no zone identifier is supplied the constructor declares these
    sixteen children, in this order, and no id is used twice, so that no
    declaration is refused as a duplicate. *)
Theorem stack_children_ids (props : InfrastructureStackProps) :
  absent (hostedZoneId props) ->
  ids (node (InfrastructureStack props))
  = ["WebsiteBucket"; "OriginAccessControl"; "HostedZone"; "Certificate";
     "SecurityHeadersPolicy"; "Distribution"; "ARecord"; "WwwARecord";
     "DeploymentUser"; "DeploymentPolicy"; "WebsiteBucketName";
     "CloudFrontDistributionId"; "CloudFrontDistributionDomainName";
     "DeploymentUserName"; "WebsiteUrl"; "NameServers"]
  /\ NoDup (ids (node (InfrastructureStack props))).
Proof.
  intros H%narrow_None. split; [|apply ids_NoDup].
  synth_cases props; reflexivity.
Qed.

Lemma stack_children_ids_witness :
  length (ids (node (InfrastructureStack (entry_props ∅ ∅ "example.com")))) = 16%nat.
Proof.
  destruct (stack_children_ids (entry_props ∅ ∅ "example.com")) as [H _].
  { left. reflexivity. }
  rewrite H. reflexivity.
Defined.

Lemma tryFindChild_app_last (id : string) (c : construct) (cs : children) :
  tryFindChild id cs = None -> tryFindChild id (cs ++ [(id, c)]) = Some c.
Proof.
  induction cs as [|[i c'] cs IH]; cbn.
  - by rewrite String.eqb_refl.
  - destruct (String.eqb i id); [discriminate | exact IH].
Qed.

(** X8. [createSecurityHeadersPolicy] declares one response headers policy
    under a fixed id and returns its handle: on a stack without a child of
    that id it adds this one child, the same whatever the props, and a
    second call on the same stack always throws.  The constructor calls it
    once; the policy it declares is the only one of the stack and the one
    the default behaviour of the distribution refers to. *)
Theorem security_headers_attached (props : InfrastructureStackProps) :
  exists dp rp,
    declared as_Distribution (node (InfrastructureStack props))
    = [("Distribution", dp)]
    /\ declared as_ResponseHeadersPolicy (node (InfrastructureStack props))
       = [(cloudfront.responseHeadersPolicy (cloudfront.defaultBehavior dp), rp)]
    /\ (forall cs0 : children,
          tryFindChild "SecurityHeadersPolicy" cs0 = None ->
          createSecurityHeadersPolicy cs0
          = (Ok "SecurityHeadersPolicy",
             cs0 ++ [("SecurityHeadersPolicy", ResponseHeadersPolicy rp)]))
    /\ (forall cs0 : children,
          ((createSecurityHeadersPolicy ;;; createSecurityHeadersPolicy) cs0).1
          = Err (duplicate_construct_id "SecurityHeadersPolicy")).
Proof.
  assert (Htwice : forall cs0 : children,
             ((createSecurityHeadersPolicy ;;; createSecurityHeadersPolicy) cs0).1
             = Err (duplicate_construct_id "SecurityHeadersPolicy")).
  { intros cs0. unfold bind, createSecurityHeadersPolicy, new.
    destruct (tryFindChild "SecurityHeadersPolicy" cs0) eqn:E; [reflexivity|].
    by rewrite (tryFindChild_app_last _ _ _ E). }
  synth_cases props; do 2 eexists;
    (split; [reflexivity|]); (split; [reflexivity|]);
    (split; [|exact Htwice]);
    intros cs0 E; unfold createSecurityHeadersPolicy, new; rewrite E; reflexivity.
Qed.

Lemma security_headers_attached_witness :
  exists rp,
    createSecurityHeadersPolicy []
    = (Ok "SecurityHeadersPolicy",
       [("SecurityHeadersPolicy", ResponseHeadersPolicy rp)]).
Proof.
  destruct (security_headers_attached example_props) as (dp & rp & _ & _ & H & _).
  exists rp. apply (H []). reflexivity.
Defined.
